(** * RBAC permission checks of the OnCall API layer

    A shallow embedding of [engine/apps/api/permissions/__init__.py]:
    the permission identifier model, the permission set evaluator
    [has_permissions], the action resolver, the request and object gates of
    [RBACPermission], and the object-level policies [IsOwner],
    [HasRBACPermissions] and [IsOwnerOrHasRBACPermissions].

    Python exceptions are made explicit in a small error monad; dictionaries
    whose iteration order is irrelevant are [gmap]s, the object policy table,
    which is scanned in insertion order, is an association list. *)

From stdpp Require Import base option list strings gmap.
From Stdlib Require Import Ascii String.

Local Open Scope string_scope.
Local Open Scope list_scope.

(** ** Exceptions and results *)

Inductive Exn : Type :=
  | AssertionError (msg : string)
  | AttributeError.

Inductive result (A : Type) : Type :=
  | Ok (a : A)
  | Raise (e : Exn).

Arguments Ok {A} a.
Arguments Raise {A} e.

#[global] Instance result_ret : MRet result := λ A, Ok.

#[global] Instance result_bind : MBind result := λ A B k r,
  match r with
  | Ok a => k a
  | Raise e => Raise e
  end.

Definition is_Ok {A : Type} (r : result A) : Prop := ∃ a, r = Ok a.

(** ** Module constants *)

Definition ACTION_PREFIX : string := "grafana-oncall-app".
Definition RBAC_PERMISSIONS_ATTR : string := "rbac_permissions".
Definition RBAC_OBJECT_PERMISSIONS_ATTR : string := "rbac_object_permissions".

(** [GrafanaPermission] is a typed dictionary with the single key
    ["action"]. *)
Record GrafanaPermission : Type := { action : string }.

(** ** Permission identifier model *)

Module Resources.
Inductive t : Type :=
  | ALERT_GROUPS
  | INTEGRATIONS
  | ESCALATION_CHAINS
  | SCHEDULES
  | CHATOPS
  | OUTGOING_WEBHOOKS
  | MAINTENANCE
  | API_KEYS
  | NOTIFICATION_SETTINGS
  | USER_SETTINGS
  | OTHER_SETTINGS
  | _IMPOSSIBLE_TESTING.

Definition value (r : t) : string :=
  match r with
  | ALERT_GROUPS => "alert-groups"
  | INTEGRATIONS => "integrations"
  | ESCALATION_CHAINS => "escalation-chains"
  | SCHEDULES => "schedules"
  | CHATOPS => "chatops"
  | OUTGOING_WEBHOOKS => "outgoing-webhooks"
  | MAINTENANCE => "maintenance"
  | API_KEYS => "api-keys"
  | NOTIFICATION_SETTINGS => "notification-settings"
  | USER_SETTINGS => "user-settings"
  | OTHER_SETTINGS => "other-settings"
  | _IMPOSSIBLE_TESTING => "impossible-testing"
  end.
End Resources.

Module Actions.
Inductive t : Type :=
  | READ
  | WRITE
  | ADMIN
  | _IMPOSSIBLE_TESTING.

Definition value (a : t) : string :=
  match a with
  | READ => "read"
  | WRITE => "write"
  | ADMIN => "admin"
  | _IMPOSSIBLE_TESTING => "impossible-testing"
  end.
End Actions.

(** The f-string [f"{'' if ignore_prefix else with_prefix}{resource.value}:{action.value}"]. *)
Definition _generate_permission_string
    (resource : Resources.t) (action : Actions.t) (ignore_prefix : bool) : string :=
  let with_prefix := ACTION_PREFIX +:+ "." in
  (if ignore_prefix then "" else with_prefix)
    +:+ Resources.value resource +:+ ":" +:+ Actions.value action.

(** The enumeration [RBACPermission.Permissions]; every member's value is
    computed by [_generate_permission_string] with the prefix kept. *)
Module Permissions.
Inductive t : Type :=
  | ALERT_GROUPS_READ
  | ALERT_GROUPS_WRITE
  | INTEGRATIONS_READ
  | INTEGRATIONS_WRITE
  | ESCALATION_CHAINS_READ
  | ESCALATION_CHAINS_WRITE
  | SCHEDULES_READ
  | SCHEDULES_WRITE
  | CHATOPS_READ
  | CHATOPS_WRITE
  | OUTGOING_WEBHOOKS_READ
  | OUTGOING_WEBHOOKS_WRITE
  | MAINTENANCE_READ
  | MAINTENANCE_WRITE
  | API_KEYS_READ
  | API_KEYS_WRITE
  | NOTIFICATION_SETTINGS_READ
  | NOTIFICATION_SETTINGS_WRITE
  | USER_SETTINGS_READ
  | USER_SETTINGS_WRITE
  | USER_SETTINGS_ADMIN
  | OTHER_SETTINGS_READ
  | OTHER_SETTINGS_WRITE
  | TESTING.

Definition members (p : t) : Resources.t * Actions.t :=
  match p with
  | ALERT_GROUPS_READ => (Resources.ALERT_GROUPS, Actions.READ)
  | ALERT_GROUPS_WRITE => (Resources.ALERT_GROUPS, Actions.WRITE)
  | INTEGRATIONS_READ => (Resources.INTEGRATIONS, Actions.READ)
  | INTEGRATIONS_WRITE => (Resources.INTEGRATIONS, Actions.WRITE)
  | ESCALATION_CHAINS_READ => (Resources.ESCALATION_CHAINS, Actions.READ)
  | ESCALATION_CHAINS_WRITE => (Resources.ESCALATION_CHAINS, Actions.WRITE)
  | SCHEDULES_READ => (Resources.SCHEDULES, Actions.READ)
  | SCHEDULES_WRITE => (Resources.SCHEDULES, Actions.WRITE)
  | CHATOPS_READ => (Resources.CHATOPS, Actions.READ)
  | CHATOPS_WRITE => (Resources.CHATOPS, Actions.WRITE)
  | OUTGOING_WEBHOOKS_READ => (Resources.OUTGOING_WEBHOOKS, Actions.READ)
  | OUTGOING_WEBHOOKS_WRITE => (Resources.OUTGOING_WEBHOOKS, Actions.WRITE)
  | MAINTENANCE_READ => (Resources.MAINTENANCE, Actions.READ)
  | MAINTENANCE_WRITE => (Resources.MAINTENANCE, Actions.WRITE)
  | API_KEYS_READ => (Resources.API_KEYS, Actions.READ)
  | API_KEYS_WRITE => (Resources.API_KEYS, Actions.WRITE)
  | NOTIFICATION_SETTINGS_READ => (Resources.NOTIFICATION_SETTINGS, Actions.READ)
  | NOTIFICATION_SETTINGS_WRITE => (Resources.NOTIFICATION_SETTINGS, Actions.WRITE)
  | USER_SETTINGS_READ => (Resources.USER_SETTINGS, Actions.READ)
  | USER_SETTINGS_WRITE => (Resources.USER_SETTINGS, Actions.WRITE)
  | USER_SETTINGS_ADMIN => (Resources.USER_SETTINGS, Actions.ADMIN)
  | OTHER_SETTINGS_READ => (Resources.OTHER_SETTINGS, Actions.READ)
  | OTHER_SETTINGS_WRITE => (Resources.OTHER_SETTINGS, Actions.WRITE)
  | TESTING => (Resources._IMPOSSIBLE_TESTING, Actions._IMPOSSIBLE_TESTING)
  end.

Definition value (p : t) : string :=
  _generate_permission_string (members p).1 (members p).2 false.
End Permissions.

(** ** Permission set evaluator *)

(** The inner [for user_permission in user_permissions] loop: it leaves
    [granted_permission] at the first grant whose ["action"] equals the
    required value and breaks, or at [None] when the list is exhausted. *)
Fixpoint granted_permission
    (user_permissions : list GrafanaPermission) (required_value : string)
    : option GrafanaPermission :=
  match user_permissions with
  | [] => None
  | user_permission :: rest =>
      if String.eqb (action user_permission) required_value
      then Some user_permission
      else granted_permission rest required_value
  end.

(** The outer loop: [user_has_all_required_permissions] starts at [True] and
    drops to [False], with a break, at the first unmet requirement. *)
Fixpoint has_permissions
    (user_permissions : list GrafanaPermission)
    (required_permissions : list Permissions.t) : bool :=
  match required_permissions with
  | [] => true
  | required_permission :: rest =>
      match granted_permission user_permissions (Permissions.value required_permission) with
      | None => false
      | Some _ => has_permissions user_permissions rest
      end
  end.

(** ** Objects, requests and views *)

(** Python values as far as the checks look at them.  An object is a
    reference into a heap of attribute dictionaries; [==] on two references
    compares the references, so [VObj l] stands for the object as [==] sees
    it. *)
Inductive Value : Type :=
  | VNone
  | VStr (s : string)
  | VObj (l : nat).

#[global] Instance Value_eq_dec : EqDecision Value.
Proof. solve_decision. Defined.

Abbreviation Heap := (gmap nat (gmap string Value)).

(** The built-in [getattr(obj, name)] without a default: the attribute's
    value, or [AttributeError] when the object has no such attribute. *)
Definition getattr (h : Heap) (obj : Value) (name : string) : result Value :=
  match obj with
  | VObj l =>
      match h !! l ≫= (λ attrs : gmap string Value, attrs !! name) with
      | Some v => Ok v
      | None => Raise AttributeError
      end
  | _ => Raise AttributeError
  end.

(** Modelled from the spec: the components of a dotted attribute path, as
    [getattrd] needs them; what [name.split(".")] gives, the pieces between
    the dots, never an empty list. *)
Fixpoint split_dot (name : string) : list string :=
  match name with
  | EmptyString => [EmptyString]
  | String c rest =>
      if Ascii.eqb c "."%char then EmptyString :: split_dot rest
      else match split_dot rest with
           | [] => [String c EmptyString]
           | piece :: pieces => String c piece :: pieces
           end
  end.

(** Modelled from the spec: the nested attribute access of [getattrd]; the
    attributes are read left to right, each from the value the previous one
    gave, and the first missing one raises. *)
Fixpoint walk (h : Heap) (obj : Value) (names : list string) : result Value :=
  match names with
  | [] => Ok obj
  | name :: rest => v ← getattr h obj name; walk h v rest
  end.

(** Modelled from the spec: [getattrd] of [common.utils], imported by the
    module but defined outside it.  The spec describes it as walking the
    dotted path by nested attribute access (["schedule.user"] reads
    [object.schedule.user]), a missing attribute anywhere in the path
    failing loudly. *)
Definition getattrd (h : Heap) (obj : Value) (name : string) : result Value :=
  walk h obj (split_dot name).

(** The principal: the object [request.user] and its [permissions]. *)
Record User : Type := {
  user_ref : nat;
  permissions : list GrafanaPermission
}.

Record Request : Type := {
  user : User;
  method : string
}.

(** [request.user] as a value to compare against. *)
Definition request_user (request : Request) : Value := VObj (user_ref (user request)).

(** [str.lower] on the ASCII letters of an HTTP method name. *)
Definition lower_ascii (c : ascii) : ascii :=
  let n := nat_of_ascii c in
  if (65 <=? n)%nat && (n <=? 90)%nat then ascii_of_nat (n + 32) else c.

Fixpoint lower (s : string) : string :=
  match s with
  | EmptyString => EmptyString
  | String c rest => String (lower_ascii c) (lower rest)
  end.

(** ** Object-level access policies *)

Module IsOwner.
Record t : Type := { ownership_field : option string }.

Definition has_object_permission
    (h : Heap) (self : t) (request : Request) (obj : Value) : result bool :=
  owner ← match ownership_field self with
          | None => Ok obj
          | Some field => getattrd h obj field
          end;
  Ok (bool_decide (owner = request_user request)).
End IsOwner.

Module HasRBACPermissions.
Record t : Type := { required_permissions : list Permissions.t }.

Definition has_object_permission
    (self : t) (request : Request) (_obj : Value) : result bool :=
  Ok (has_permissions (permissions (user request)) (required_permissions self)).
End HasRBACPermissions.

Module IsOwnerOrHasRBACPermissions.
Record t : Type := {
  IsOwner : IsOwner.t;
  HasRBACPermissions : HasRBACPermissions.t
}.

(** [__init__(required_permissions, ownership_field=None)] *)
Definition init (required_permissions : list Permissions.t)
    (ownership_field : option string) : t :=
  {| IsOwner := {| IsOwner.ownership_field := ownership_field |};
     HasRBACPermissions :=
       {| HasRBACPermissions.required_permissions := required_permissions |} |}.

(** [a or b]: the right operand runs only when the left one is false. *)
Definition has_object_permission
    (h : Heap) (self : t) (request : Request) (obj : Value) : result bool :=
  is_owner ← IsOwner.has_object_permission h (IsOwner self) request obj;
  if is_owner : bool then Ok true
  else HasRBACPermissions.has_object_permission (HasRBACPermissions self) request obj.
End IsOwnerOrHasRBACPermissions.

(** The policy instances a handler can put in its object policy table, and
    the dynamic dispatch of [PermissionClass.has_object_permission]. *)
Inductive PermissionClass : Type :=
  | PIsOwner (p : IsOwner.t)
  | PHasRBACPermissions (p : HasRBACPermissions.t)
  | PIsOwnerOrHasRBACPermissions (p : IsOwnerOrHasRBACPermissions.t).

Definition policy_has_object_permission
    (h : Heap) (p : PermissionClass) (request : Request) (obj : Value) : result bool :=
  match p with
  | PIsOwner p => IsOwner.has_object_permission h p request obj
  | PHasRBACPermissions p => HasRBACPermissions.has_object_permission p request obj
  | PIsOwnerOrHasRBACPermissions p =>
      IsOwnerOrHasRBACPermissions.has_object_permission h p request obj
  end.

(** ** Handlers *)

Abbreviation RBACPermissionsAttribute := (gmap string (list Permissions.t)).
Abbreviation RBACObjectPermissionsAttribute := (list (PermissionClass * list string)).

(** The two handler shapes: a [ViewSetMixin] carries its current action, an
    [APIView] does not. *)
Inductive ViewShape : Type :=
  | ViewSetMixin (action : string)
  | APIView.

(** A handler with its two optional tables; [None] is what
    [getattr(view, ATTR, None)] gives for an attribute that is not there. *)
Record View : Type := {
  shape : ViewShape;
  rbac_permissions : option RBACPermissionsAttribute;
  rbac_object_permissions : option RBACObjectPermissionsAttribute
}.

Definition _get_view_action (request : Request) (view : View) : string :=
  match shape view with
  | ViewSetMixin action => action
  | APIView => lower (method request)
  end.

(** ** The permission check gate *)

Module RBACPermission.
Definition missing_table_message : string :=
  "Must define a " +:+ RBAC_PERMISSIONS_ATTR
    +:+ " dict on the ViewSet that is consuming the RBACPermission class".

Definition has_permission (request : Request) (view : View) : result bool :=
  let action := _get_view_action request view in
  match rbac_permissions view with
  | None => Raise (AssertionError missing_table_message)
  | Some rbac_permissions =>
      Ok (has_permissions (permissions (user request))
            (default [] (rbac_permissions !! action)))
  end.

(** The [for PermissionClass, actions in rbac_object_permissions.items()]
    loop, with its [return False] after the loop. *)
Fixpoint scan (h : Heap) (items : RBACObjectPermissionsAttribute)
    (action : string) (request : Request) (obj : Value) : result bool :=
  match items with
  | [] => Ok false
  | (PermissionClass, actions) :: rest =>
      if bool_decide (action ∈ actions)
      then policy_has_object_permission h PermissionClass request obj
      else scan h rest action request obj
  end.

Definition has_object_permission
    (h : Heap) (request : Request) (view : View) (obj : Value) : result bool :=
  match rbac_object_permissions view with
  | Some ((_ :: _) as rbac_object_permissions) =>
      let action := _get_view_action request view in
      scan h rbac_object_permissions action request obj
  | _ => Ok true
  end.
End RBACPermission.

(** ** The permission catalog *)

#[global] Instance Permissions_eq_dec : EqDecision Permissions.t.
Proof. solve_decision. Defined.

(** Iterating over the [Permissions] enumeration: its members in the order
    of their definition. *)
Definition Permissions_iter : list Permissions.t :=
  [ Permissions.ALERT_GROUPS_READ; Permissions.ALERT_GROUPS_WRITE;
    Permissions.INTEGRATIONS_READ; Permissions.INTEGRATIONS_WRITE;
    Permissions.ESCALATION_CHAINS_READ; Permissions.ESCALATION_CHAINS_WRITE;
    Permissions.SCHEDULES_READ; Permissions.SCHEDULES_WRITE;
    Permissions.CHATOPS_READ; Permissions.CHATOPS_WRITE;
    Permissions.OUTGOING_WEBHOOKS_READ; Permissions.OUTGOING_WEBHOOKS_WRITE;
    Permissions.MAINTENANCE_READ; Permissions.MAINTENANCE_WRITE;
    Permissions.API_KEYS_READ; Permissions.API_KEYS_WRITE;
    Permissions.NOTIFICATION_SETTINGS_READ; Permissions.NOTIFICATION_SETTINGS_WRITE;
    Permissions.USER_SETTINGS_READ; Permissions.USER_SETTINGS_WRITE;
    Permissions.USER_SETTINGS_ADMIN;
    Permissions.OTHER_SETTINGS_READ; Permissions.OTHER_SETTINGS_WRITE;
    Permissions.TESTING ].

(** [[permission for permission in RBACPermission.Permissions
      if permission != RBACPermission.Permissions.TESTING]] *)
Definition ALL_PERMISSIONS : list Permissions.t :=
  filter (λ permission, permission ≠ Permissions.TESTING) Permissions_iter.

(** The ownership path a policy instance was constructed with, if any. *)
Definition policy_ownership_field (p : PermissionClass) : option string :=
  match p with
  | PIsOwner p => IsOwner.ownership_field p
  | PHasRBACPermissions _ => None
  | PIsOwnerOrHasRBACPermissions p =>
      IsOwner.ownership_field (IsOwnerOrHasRBACPermissions.IsOwner p)
  end.

(** ** Fixtures, after the mocks of the module's tests *)

(** Two users, a schedule owned by the first and a thingy holding the
    schedule.  The users' [permissions] travel with the request. *)
Definition user1_ref : nat := 1.
Definition user2_ref : nat := 2.
Definition schedule : Value := VObj 3.
Definition thingy : Value := VObj 4.

Definition mocked_heap : Heap :=
  {[ user1_ref := ∅;
     user2_ref := ∅;
     3 := {[ "user" := VObj user1_ref ]};
     4 := {[ "schedule" := schedule ]} ]}.

Definition MockedUser (ref : nat) (permissions : list GrafanaPermission) : User :=
  {| user_ref := ref; permissions := permissions |}.

Definition MockedRequest (user : User) (method : string) : Request :=
  {| user := user; method := method |}.

Definition MockedViewSet (action : string)
    (rbac_permissions : option RBACPermissionsAttribute)
    (rbac_object_permissions : option RBACObjectPermissionsAttribute) : View :=
  {| shape := ViewSetMixin action;
     rbac_permissions := rbac_permissions;
     rbac_object_permissions := rbac_object_permissions |}.

Definition MockedAPIView
    (rbac_permissions : option RBACPermissionsAttribute)
    (rbac_object_permissions : option RBACObjectPermissionsAttribute) : View :=
  {| shape := APIView;
     rbac_permissions := rbac_permissions;
     rbac_object_permissions := rbac_object_permissions |}.

Definition grant (p : Permissions.t) : GrafanaPermission :=
  {| action := Permissions.value p |}.

(** An object policy table with overlapping entries for ["destroy"]. *)
Definition mocked_object_permissions : RBACObjectPermissionsAttribute :=
  [ (PHasRBACPermissions
       {| HasRBACPermissions.required_permissions := [Permissions.SCHEDULES_READ] |},
     ["list"; "retrieve"]);
    (PIsOwner {| IsOwner.ownership_field := Some "user" |}, ["update"; "destroy"]);
    (PHasRBACPermissions {| HasRBACPermissions.required_permissions := [] |},
     ["destroy"]) ].

(** ** Sanity checks taken from the module's tests *)

Example test_generate_permission_string :
  _generate_permission_string Resources.ALERT_GROUPS Actions.WRITE false
    = "grafana-oncall-app.alert-groups:write"
  ∧ _generate_permission_string Resources.ALERT_GROUPS Actions.WRITE true
    = "alert-groups:write".
Proof. split; reflexivity. Qed.

Example test_get_view_action :
  let request := {| user := {| user_ref := 0; permissions := [] |};
                    method := "APIVIEW_ACTION" |} in
  _get_view_action request
    {| shape := ViewSetMixin "viewset_action"; rbac_permissions := None;
       rbac_object_permissions := None |} = "viewset_action"
  ∧ _get_view_action request
    {| shape := APIView; rbac_permissions := None;
       rbac_object_permissions := None |} = "apiview_action".
Proof. split; reflexivity. Qed.

Example test_split_dot :
  split_dot "schedule.user" = ["schedule"; "user"]
  ∧ split_dot "user" = ["user"] ∧ split_dot "" = [""] ∧ split_dot "a..b" = ["a"; ""; "b"].
Proof. repeat split; reflexivity. Qed.

Example test_has_permissions :
  has_permissions [grant Permissions.ALERT_GROUPS_READ] [Permissions.ALERT_GROUPS_READ] = true
  ∧ has_permissions
      [grant Permissions.ALERT_GROUPS_READ; grant Permissions.ALERT_GROUPS_WRITE]
      [Permissions.ALERT_GROUPS_READ; Permissions.ALERT_GROUPS_WRITE] = true
  ∧ has_permissions [grant Permissions.TESTING] [Permissions.ALERT_GROUPS_READ] = false
  ∧ has_permissions [grant Permissions.ALERT_GROUPS_READ]
      [Permissions.ALERT_GROUPS_READ; Permissions.ALERT_GROUPS_WRITE] = false.
Proof. repeat split; reflexivity. Qed.

Example test_has_permission_works_on_an_apiview_view :
  let apiview := MockedAPIView (Some {[ "hello" := [Permissions.ALERT_GROUPS_READ] ]}) None in
  let apiview_with_no_permissions := MockedAPIView (Some {[ "hello" := [] ]}) None in
  let user1 := MockedUser user1_ref [grant Permissions.ALERT_GROUPS_READ] in
  let user2 := MockedUser user2_ref [grant Permissions.TESTING] in
  RBACPermission.has_permission (MockedRequest user1 "hello") apiview = Ok true
  ∧ RBACPermission.has_permission (MockedRequest user2 "hello") apiview = Ok false
  ∧ RBACPermission.has_permission (MockedRequest user2 "hello")
      apiview_with_no_permissions = Ok true.
Proof. repeat split; reflexivity. Qed.

Example test_it_works_when_comparing_user_to_nested_ownership_field_object :
  let IsScheduleOwner := {| IsOwner.ownership_field := Some "schedule.user" |} in
  IsOwner.has_object_permission mocked_heap IsScheduleOwner
    (MockedRequest (MockedUser user1_ref []) "GET") thingy = Ok true
  ∧ IsOwner.has_object_permission mocked_heap IsScheduleOwner
      (MockedRequest (MockedUser user2_ref []) "GET") thingy = Ok false.
Proof. split; reflexivity. Qed.

Example test_it_works_when_user_is_not_owner_and_has_permissions :
  let request :=
    MockedRequest (MockedUser user2_ref [grant Permissions.SCHEDULES_READ]) "GET" in
  IsOwnerOrHasRBACPermissions.has_object_permission mocked_heap
    (IsOwnerOrHasRBACPermissions.init [Permissions.SCHEDULES_READ] None)
    request (VObj user1_ref) = Ok true
  ∧ IsOwnerOrHasRBACPermissions.has_object_permission mocked_heap
      (IsOwnerOrHasRBACPermissions.init [Permissions.SCHEDULES_READ] (Some "user"))
      request schedule = Ok true
  ∧ IsOwnerOrHasRBACPermissions.has_object_permission mocked_heap
      (IsOwnerOrHasRBACPermissions.init [Permissions.SCHEDULES_READ] (Some "schedule.user"))
      request thingy = Ok true
  ∧ IsOwnerOrHasRBACPermissions.has_object_permission mocked_heap
      (IsOwnerOrHasRBACPermissions.init [Permissions.SCHEDULES_READ] (Some "schedule.user"))
      (MockedRequest (MockedUser user2_ref []) "GET") thingy = Ok false.
Proof. repeat split; reflexivity. Qed.

(** * Properties *)

(** ** The evaluator *)

Section evaluator.
Implicit Types (G : list GrafanaPermission) (R : list Permissions.t).

Lemma granted_permission_is_Some G v :
  is_Some (granted_permission G v) ↔ ∃ g, g ∈ G ∧ action g = v.
Proof.
  induction G as [|g G IH]; simpl.
  - split; [intros [? [=]] | intros (g & Hg & _); inversion Hg].
  - destruct (String.eqb_spec (action g) v) as [Heq|Hne].
    + split; [intros _; exists g; split; [left | done] | eauto].
    + rewrite IH. split.
      * intros (g' & Hin & Hg'). exists g'. split; [by right | done].
      * intros (g' & Hin & Hg'). inversion Hin; subst; [done | eauto].
Qed.

Lemma granted_permission_found G v g :
  granted_permission G v = Some g → g ∈ G ∧ action g = v.
Proof.
  induction G as [|g' G IH]; simpl; [done |].
  destruct (String.eqb_spec (action g') v) as [Heq|Hne].
  - intros [= <-]. split; [left | done].
  - intros Hg. destruct (IH Hg). split; [by right | done].
Qed.

Lemma has_permissions_true_iff G R :
  has_permissions G R = true ↔
  ∀ r, r ∈ R → ∃ g, g ∈ G ∧ action g = Permissions.value r.
Proof.
  induction R as [|r R IH]; simpl.
  - split; [intros _ r Hr; inversion Hr | done].
  - destruct (granted_permission G (Permissions.value r)) as [g|] eqn:Hg.
    + rewrite IH. split.
      * intros HR r' Hr'. inversion Hr'; subst; [| by apply HR].
        exists g. by apply granted_permission_found.
      * intros HR r' Hr'. apply HR. by right.
    + split; [done |]. intros HR.
      assert (is_Some (granted_permission G (Permissions.value r))) as [? Hsome].
      { apply granted_permission_is_Some, HR. left. }
      congruence.
Qed.

Lemma has_permissions_mono G G' R :
  G ⊆ G' → has_permissions G R = true → has_permissions G' R = true.
Proof.
  rewrite !has_permissions_true_iff. intros Hsub HR r Hr.
  destruct (HR r Hr) as (g & Hg & Hact). exists g. split; [by apply Hsub | done].
Qed.

Lemma has_permissions_anti G R R' :
  R' ⊆ R → has_permissions G R = true → has_permissions G R' = true.
Proof.
  rewrite !has_permissions_true_iff. intros Hsub HR r Hr. apply HR, Hsub, Hr.
Qed.

Lemma has_permissions_same_elements G G' R R' :
  (∀ g, g ∈ G ↔ g ∈ G') → (∀ r, r ∈ R ↔ r ∈ R') →
  has_permissions G R = has_permissions G' R'.
Proof.
  intros HG HR.
  destruct (has_permissions G R) eqn:H1, (has_permissions G' R') eqn:H2; try done.
  - rewrite <- H2. symmetry.
    eapply has_permissions_mono; [intros g; apply HG |].
    eapply has_permissions_anti; [intros r; apply HR | done].
  - rewrite <- H1.
    eapply has_permissions_mono; [intros g; apply HG |].
    eapply has_permissions_anti; [intros r; apply HR | done].
Qed.
End evaluator.

(** C2: [has_permissions G R] is true exactly when every identifier required
    by [R] is the ["action"] of some grant in [G]; an empty requirement list
    is always satisfied; and two calls whose lists have the same elements,
    in whatever order and with whatever repetitions, give the same result. *)
Theorem has_permissions_spec
    (G G' : list GrafanaPermission) (R R' : list Permissions.t) :
  (has_permissions G R = true ↔
     ∀ r, r ∈ R → ∃ g, g ∈ G ∧ action g = Permissions.value r)
  ∧ has_permissions G [] = true
  ∧ ((∀ g, g ∈ G ↔ g ∈ G') → (∀ r, r ∈ R ↔ r ∈ R') →
     has_permissions G R = has_permissions G' R').
Proof.
  split; [apply has_permissions_true_iff |].
  split; [reflexivity |].
  apply has_permissions_same_elements.
Qed.

(** C10: the evaluator is monotone in the granted list: whatever [G]
    satisfies, every list containing the elements of [G] satisfies too. *)
Theorem has_permissions_monotone
    (G G' : list GrafanaPermission) (R : list Permissions.t) :
  (∀ g, g ∈ G → g ∈ G') →
  has_permissions G R = true →
  has_permissions G' R = true.
Proof. apply has_permissions_mono. Qed.

(** ** The identifier model *)

Lemma Resources_value_sep_inj (r1 r2 : Resources.t) (s1 s2 : string) :
  Resources.value r1 +:+ ":" +:+ s1 = Resources.value r2 +:+ ":" +:+ s2 →
  r1 = r2 ∧ s1 = s2.
Proof.
  destruct r1, r2; simpl; intros H; first [discriminate H | by simplify_eq].
Qed.

Lemma Actions_value_inj (a1 a2 : Actions.t) :
  Actions.value a1 = Actions.value a2 → a1 = a2.
Proof. destruct a1, a2; simpl; intros H; first [discriminate H | done]. Qed.

Lemma generate_permission_string_inj r1 a1 r2 a2 ignore_prefix :
  _generate_permission_string r1 a1 ignore_prefix
    = _generate_permission_string r2 a2 ignore_prefix →
  r1 = r2 ∧ a1 = a2.
Proof.
  unfold _generate_permission_string. intros H.
  assert (Resources.value r1 +:+ ":" +:+ Actions.value a1
          = Resources.value r2 +:+ ":" +:+ Actions.value a2) as Hshort.
  { destruct ignore_prefix; simpl in H; [done | by simplify_eq]. }
  apply Resources_value_sep_inj in Hshort as [-> Ha].
  split; [done | by apply Actions_value_inj].
Qed.

(** C9: the identifier built with the prefix is the fixed prefix, with its
    separating dot, followed by the identifier built without it, which is
    [<resource>:<action>]; and in either mode two pairs with the same
    identifier are the same pair. *)
Theorem generate_permission_string_spec
    (r1 r2 : Resources.t) (a1 a2 : Actions.t) (ignore_prefix : bool) :
  _generate_permission_string r1 a1 true
    = Resources.value r1 +:+ ":" +:+ Actions.value a1
  ∧ _generate_permission_string r1 a1 false
    = ACTION_PREFIX +:+ "." +:+ _generate_permission_string r1 a1 true
  ∧ (_generate_permission_string r1 a1 ignore_prefix
       = _generate_permission_string r2 a2 ignore_prefix →
     (r1, a1) = (r2, a2)).
Proof.
  split; [reflexivity |]. split; [reflexivity |].
  intros H. by apply generate_permission_string_inj in H as [-> ->].
Qed.

(** ** The request gate *)

(** C3: without a required-permissions table the request gate raises the
    assertion error, for either handler shape and whatever the request; it
    returns neither [True] nor [False]. *)
Theorem has_permission_without_table (request : Request) (view : View) :
  rbac_permissions view = None →
  RBACPermission.has_permission request view
    = Raise (AssertionError RBACPermission.missing_table_message)
  ∧ ∀ b, RBACPermission.has_permission request view ≠ Ok b.
Proof.
  intros Hnone. unfold RBACPermission.has_permission. rewrite Hnone.
  split; [reflexivity | intros b; discriminate].
Qed.

(** C4: with a required-permissions table the request gate returns [True]
    when the resolved action has no entry, and otherwise the evaluator's
    verdict on the principal's grants and the entry's list. *)
Theorem has_permission_with_table
    (request : Request) (view : View) (table : RBACPermissionsAttribute) :
  rbac_permissions view = Some table →
  (table !! _get_view_action request view = None →
   RBACPermission.has_permission request view = Ok true)
  ∧ (∀ required, table !! _get_view_action request view = Some required →
     RBACPermission.has_permission request view
       = Ok (has_permissions (permissions (user request)) required)).
Proof.
  intros Htable. unfold RBACPermission.has_permission. rewrite Htable.
  split; [intros -> | intros required ->]; reflexivity.
Qed.

(** ** The object gate *)

Section object_gate.
Variables (h : Heap) (request : Request) (obj : Value).

Lemma scan_first_match pre p actions post action :
  (∀ e, e ∈ pre → action ∉ e.2) → action ∈ actions →
  RBACPermission.scan h (pre ++ (p, actions) :: post) action request obj
    = policy_has_object_permission h p request obj.
Proof.
  intros Hpre Hin. induction pre as [|[q acts] pre IH]; simpl.
  - by rewrite bool_decide_eq_true_2.
  - rewrite bool_decide_eq_false_2.
    + apply IH. intros e He. apply Hpre. by right.
    + apply (Hpre (q, acts)). left.
Qed.

Lemma scan_no_match items action :
  (∀ e, e ∈ items → action ∉ e.2) →
  RBACPermission.scan h items action request obj = Ok false.
Proof.
  induction items as [|[q acts] items IH]; simpl; intros Hnone; [done |].
  rewrite bool_decide_eq_false_2.
  - apply IH. intros e He. apply Hnone. by right.
  - apply (Hnone (q, acts)). left.
Qed.
End object_gate.

(** C5: without an object policy table the object gate returns [True] for
    every request, action and object. *)
Theorem has_object_permission_without_table
    (h : Heap) (request : Request) (view : View) (obj : Value) :
  rbac_object_permissions view = None →
  RBACPermission.has_object_permission h request view obj = Ok true.
Proof.
  intros Hnone. unfold RBACPermission.has_object_permission. by rewrite Hnone.
Qed.

(** C1 as the claim states it fails on a declared but empty table: the gate
    tests the table's truthiness, so the empty table is taken for an absent
    one and the answer is [True], not [False]. *)
Lemma has_object_permission_empty_table_allows :
  rbac_object_permissions (MockedViewSet "hello" None (Some [])) = Some []
  ∧ RBACPermission.has_object_permission mocked_heap
      (MockedRequest (MockedUser user1_ref []) "hello")
      (MockedViewSet "hello" None (Some [])) VNone = Ok true
  ∧ RBACPermission.has_object_permission mocked_heap
      (MockedRequest (MockedUser user1_ref []) "hello")
      (MockedViewSet "hello" None (Some [])) VNone ≠ Ok false.
Proof. split; [reflexivity |]. split; [reflexivity | discriminate]. Qed.

(** C1 (amended): with a declared, non-empty object policy table the gate
    scans the entries in declaration order and hands the decision to the
    policy of the first entry whose actions contain the resolved action; it
    returns [False] when no entry does.  A declared but empty table gives
    [True], as an absent one does. *)
Theorem has_object_permission_with_table
    (h : Heap) (request : Request) (view : View) (obj : Value)
    (table : RBACObjectPermissionsAttribute) :
  rbac_object_permissions view = Some table →
  (table ≠ [] →
     (∀ pre p actions post,
        table = pre ++ (p, actions) :: post →
        (∀ e, e ∈ pre → _get_view_action request view ∉ e.2) →
        _get_view_action request view ∈ actions →
        RBACPermission.has_object_permission h request view obj
          = policy_has_object_permission h p request obj)
     ∧ ((∀ e, e ∈ table → _get_view_action request view ∉ e.2) →
        RBACPermission.has_object_permission h request view obj = Ok false))
  ∧ (table = [] →
     RBACPermission.has_object_permission h request view obj = Ok true).
Proof.
  intros Htable. unfold RBACPermission.has_object_permission. rewrite Htable.
  split; [| by intros ->].
  intros Hne. destruct table as [|e0 table]; [done |]. split.
  - intros pre p actions post -> Hpre Hin. by apply scan_first_match.
  - intros Hnone. by apply scan_no_match.
Qed.

(** ** Dotted paths *)

Lemma split_dot_nonempty (name : string) : split_dot name ≠ [].
Proof.
  destruct name as [|c rest]; simpl; [done |].
  destruct (Ascii.eqb c "."); [done |]. by destruct (split_dot rest).
Qed.

Lemma split_dot_dotted (a b : string) :
  split_dot (a +:+ "." +:+ b) = split_dot a ++ split_dot b.
Proof.
  induction a as [|c a IH]; simpl; [done |].
  rewrite IH. destruct (Ascii.eqb c "."); [done |].
  pose proof (split_dot_nonempty a). by destruct (split_dot a).
Qed.

Lemma walk_app (h : Heap) (obj : Value) (pre post : list string) :
  walk h obj (pre ++ post) = v ← walk h obj pre; walk h v post.
Proof.
  revert obj. induction pre as [|name pre IH]; intros obj; simpl; [done |].
  destruct (getattr h obj name) as [v|e]; simpl; [apply IH | done].
Qed.

Lemma getattrd_dotted (h : Heap) (obj : Value) (a b : string) :
  getattrd h obj (a +:+ "." +:+ b) = v ← getattrd h obj a; getattrd h v b.
Proof. unfold getattrd. by rewrite split_dot_dotted, walk_app. Qed.

Lemma getattr_error (h : Heap) (obj : Value) (name : string) :
  ¬ is_Ok (getattr h obj name) → getattr h obj name = Raise AttributeError.
Proof.
  unfold getattr. intros Hfail. destruct obj as [| |l]; try done.
  destruct (h !! l ≫= _) as [v|]; [| done]. destruct Hfail. by exists v.
Qed.

Lemma walk_missing (h : Heap) (obj v : Value) (pre post : list string) (name : string) :
  walk h obj pre = Ok v → ¬ is_Ok (getattr h v name) →
  walk h obj (pre ++ name :: post) = Raise AttributeError.
Proof.
  intros Hpre Hmiss. rewrite walk_app, Hpre. simpl.
  by rewrite (getattr_error _ _ _ Hmiss).
Qed.

(** A path that does not resolve has a first missing attribute. *)
Lemma walk_fails_missing (h : Heap) (obj : Value) (names : list string) :
  ¬ is_Ok (walk h obj names) →
  ∃ pre name post v,
    names = pre ++ name :: post ∧ walk h obj pre = Ok v ∧ ¬ is_Ok (getattr h v name).
Proof.
  revert obj. induction names as [|name names IH]; intros obj Hfail; simpl in Hfail.
  - destruct Hfail. by exists obj.
  - destruct (getattr h obj name) as [v|e] eqn:Hget; simpl in Hfail.
    + destruct (IH v Hfail) as (pre & name' & post & v' & -> & Hpre & Hmiss).
      exists (name :: pre), name', post, v'. simpl. rewrite Hget. by simpl.
    + exists [], name, names, obj. rewrite Hget.
      split; [done |]. split; [done |]. by intros [a [=]].
Qed.

(** ** The ownership policy *)

Lemma IsOwner_resolved (h : Heap) (self : IsOwner.t) (request : Request) (obj owner : Value) :
  match IsOwner.ownership_field self with
  | None => Ok obj
  | Some field => getattrd h obj field
  end = Ok owner →
  IsOwner.has_object_permission h self request obj
    = Ok (bool_decide (owner = request_user request)).
Proof. unfold IsOwner.has_object_permission. by intros ->. Qed.

Lemma Ok_bool_decide_true (P : Prop) `{!Decision P} :
  Ok (bool_decide P) = Ok true ↔ P.
Proof.
  split; [intros [= H]; by apply bool_decide_eq_true in H |].
  intros H. by rewrite bool_decide_eq_true_2.
Qed.

Lemma Ok_bool_decide_false (P : Prop) `{!Decision P} :
  Ok (bool_decide P) = Ok false ↔ ¬ P.
Proof.
  split; [intros [= H]; by apply bool_decide_eq_false in H |].
  intros H. by rewrite bool_decide_eq_false_2.
Qed.

(** C6: the ownership policy answers [True] when the owner is the
    requesting principal and [False] when it is not, the owner being the
    object itself when no path is configured and the value at the end of
    the dotted path when one is and resolves; a path [a.b] is resolved by
    reading [a] and then [b] from what [a] gave.  So the answer is [True]
    exactly when the owner equals the principal, and no error is raised. *)
Theorem IsOwner_has_object_permission_spec
    (h : Heap) (request : Request) (obj : Value) :
  IsOwner.has_object_permission h {| IsOwner.ownership_field := None |} request obj
    = Ok (bool_decide (obj = request_user request))
  ∧ (∀ field owner,
       getattrd h obj field = Ok owner →
       IsOwner.has_object_permission h
         {| IsOwner.ownership_field := Some field |} request obj
       = Ok (bool_decide (owner = request_user request)))
  ∧ (∀ a b mid owner,
       getattrd h obj a = Ok mid → getattrd h mid b = Ok owner →
       IsOwner.has_object_permission h
         {| IsOwner.ownership_field := Some (a +:+ "." +:+ b) |} request obj
       = Ok (bool_decide (owner = request_user request))).
Proof.
  split; [| split].
  - by apply IsOwner_resolved.
  - intros field owner Hres. by apply IsOwner_resolved.
  - intros a b mid owner Ha Hb. apply IsOwner_resolved.
    simpl. by rewrite getattrd_dotted, Ha.
Qed.

(** C7: when some attribute along the configured path is missing, the
    ownership policy raises the attribute error; it does not answer
    [False], nor anything else. *)
Theorem IsOwner_unresolved_path_raises
    (h : Heap) (request : Request) (obj : Value) (field : string)
    (pre post : list string) (name : string) (v : Value) :
  split_dot field = pre ++ name :: post →
  walk h obj pre = Ok v →
  ¬ is_Ok (getattr h v name) →
  IsOwner.has_object_permission h
    {| IsOwner.ownership_field := Some field |} request obj = Raise AttributeError
  ∧ ∀ b, IsOwner.has_object_permission h
           {| IsOwner.ownership_field := Some field |} request obj ≠ Ok b.
Proof.
  intros Hsplit Hpre Hmiss.
  assert (IsOwner.has_object_permission h
            {| IsOwner.ownership_field := Some field |} request obj
          = Raise AttributeError) as Hraise.
  { unfold IsOwner.has_object_permission, getattrd. simpl.
    by rewrite Hsplit, (walk_missing h obj v pre post name). }
  split; [done | intros b; by rewrite Hraise].
Qed.

(** ** The composed policy *)

(** C8 as the claim states it fails when the ownership path does not
    resolve: the ownership check runs first and its error is the outcome,
    although the delegated check answers [True]. *)
Lemma IsOwnerOrHasRBACPermissions_unresolved_path :
  ¬ (IsOwnerOrHasRBACPermissions.has_object_permission mocked_heap
       (IsOwnerOrHasRBACPermissions.init [Permissions.SCHEDULES_READ] (Some "schedule.user"))
       (MockedRequest (MockedUser user2_ref [grant Permissions.SCHEDULES_READ]) "GET")
       schedule = Ok true
     ↔ IsOwner.has_object_permission mocked_heap
         {| IsOwner.ownership_field := Some "schedule.user" |}
         (MockedRequest (MockedUser user2_ref [grant Permissions.SCHEDULES_READ]) "GET")
         schedule = Ok true
       ∨ HasRBACPermissions.has_object_permission
           {| HasRBACPermissions.required_permissions := [Permissions.SCHEDULES_READ] |}
           (MockedRequest (MockedUser user2_ref [grant Permissions.SCHEDULES_READ]) "GET")
           schedule = Ok true).
Proof.
  intros [_ Hback].
  assert (@Raise bool AttributeError = Ok true) as Habsurd; [| discriminate Habsurd].
  apply Hback. right. reflexivity.
Qed.

(** C8 (amended): whenever the ownership check itself returns (no path is
    configured, or the path resolves), the composed policy returns the
    disjunction of the two checks: [True] exactly when the ownership check
    or the delegated check answers [True], [False] exactly when both answer
    [False]; the delegated check ignores the object and is the evaluator's
    verdict on the principal's grants and the configured list. *)
Theorem IsOwnerOrHasRBACPermissions_spec
    (h : Heap) (self : IsOwnerOrHasRBACPermissions.t)
    (request : Request) (obj : Value) (is_owner : bool) :
  IsOwner.has_object_permission h
    (IsOwnerOrHasRBACPermissions.IsOwner self) request obj = Ok is_owner →
  IsOwnerOrHasRBACPermissions.has_object_permission h self request obj
    = Ok (is_owner
          || has_permissions (permissions (user request))
               (HasRBACPermissions.required_permissions
                  (IsOwnerOrHasRBACPermissions.HasRBACPermissions self)))
  ∧ (IsOwnerOrHasRBACPermissions.has_object_permission h self request obj = Ok true
     ↔ IsOwner.has_object_permission h
         (IsOwnerOrHasRBACPermissions.IsOwner self) request obj = Ok true
       ∨ HasRBACPermissions.has_object_permission
           (IsOwnerOrHasRBACPermissions.HasRBACPermissions self) request obj = Ok true)
  ∧ (IsOwnerOrHasRBACPermissions.has_object_permission h self request obj = Ok false
     ↔ IsOwner.has_object_permission h
         (IsOwnerOrHasRBACPermissions.IsOwner self) request obj = Ok false
       ∧ HasRBACPermissions.has_object_permission
           (IsOwnerOrHasRBACPermissions.HasRBACPermissions self) request obj = Ok false)
  ∧ (∀ obj',
       HasRBACPermissions.has_object_permission
         (IsOwnerOrHasRBACPermissions.HasRBACPermissions self) request obj'
       = Ok (has_permissions (permissions (user request))
               (HasRBACPermissions.required_permissions
                  (IsOwnerOrHasRBACPermissions.HasRBACPermissions self)))).
Proof.
  intros Howner.
  unfold IsOwnerOrHasRBACPermissions.has_object_permission,
    HasRBACPermissions.has_object_permission.
  rewrite Howner. simpl.
  split; [by destruct is_owner |]. split; [| split; [| done]].
  - destruct is_owner, (has_permissions _ _); simpl;
      (split; [intros Hres | intros [Hres | Hres]]);
      first [discriminate Hres | by left | by right | done].
  - destruct is_owner, (has_permissions _ _); simpl;
      (split; [intros Hres | intros [Hres1 Hres2]]);
      first [discriminate Hres | discriminate Hres1 | discriminate Hres2 | done].
Qed.

(** * The theorems at concrete inputs *)

(** Reordered and repeated grants and requirements. *)
Lemma has_permissions_spec_witness :
  has_permissions
    [grant Permissions.ALERT_GROUPS_READ; grant Permissions.ALERT_GROUPS_WRITE]
    [Permissions.ALERT_GROUPS_READ; Permissions.ALERT_GROUPS_WRITE]
  = has_permissions
      [grant Permissions.ALERT_GROUPS_WRITE; grant Permissions.ALERT_GROUPS_READ;
       grant Permissions.ALERT_GROUPS_WRITE]
      [Permissions.ALERT_GROUPS_WRITE; Permissions.ALERT_GROUPS_WRITE;
       Permissions.ALERT_GROUPS_READ].
Proof.
  apply (has_permissions_spec
           [grant Permissions.ALERT_GROUPS_READ; grant Permissions.ALERT_GROUPS_WRITE]
           [grant Permissions.ALERT_GROUPS_WRITE; grant Permissions.ALERT_GROUPS_READ;
            grant Permissions.ALERT_GROUPS_WRITE]
           [Permissions.ALERT_GROUPS_READ; Permissions.ALERT_GROUPS_WRITE]
           [Permissions.ALERT_GROUPS_WRITE; Permissions.ALERT_GROUPS_WRITE;
            Permissions.ALERT_GROUPS_READ]).
  - intros g. rewrite !elem_of_cons, !elem_of_nil. tauto.
  - intros r. rewrite !elem_of_cons, !elem_of_nil. tauto.
Defined.

Lemma has_permissions_monotone_witness :
  has_permissions
    [grant Permissions.TESTING; grant Permissions.ALERT_GROUPS_READ]
    [Permissions.ALERT_GROUPS_READ] = true.
Proof.
  apply (has_permissions_monotone [grant Permissions.ALERT_GROUPS_READ]).
  - intros g. rewrite !elem_of_cons, !elem_of_nil. tauto.
  - reflexivity.
Defined.

Lemma generate_permission_string_spec_witness :
  (Resources.USER_SETTINGS, Actions.ADMIN)
    = Permissions.members Permissions.USER_SETTINGS_ADMIN.
Proof.
  apply (generate_permission_string_spec
           Resources.USER_SETTINGS
           (Permissions.members Permissions.USER_SETTINGS_ADMIN).1
           Actions.ADMIN
           (Permissions.members Permissions.USER_SETTINGS_ADMIN).2 false).
  reflexivity.
Defined.

(** Both handler shapes, without the table. *)
Lemma has_permission_without_table_witness :
  RBACPermission.has_permission
    (MockedRequest (MockedUser user1_ref []) "hello") (MockedViewSet "hello" None None)
    = Raise (AssertionError RBACPermission.missing_table_message)
  ∧ RBACPermission.has_permission
      (MockedRequest (MockedUser user1_ref []) "hello") (MockedAPIView None None)
    = Raise (AssertionError RBACPermission.missing_table_message).
Proof.
  split.
  - apply (has_permission_without_table
             (MockedRequest (MockedUser user1_ref []) "hello")
             (MockedViewSet "hello" None None)). reflexivity.
  - apply (has_permission_without_table
             (MockedRequest (MockedUser user1_ref []) "hello")
             (MockedAPIView None None)). reflexivity.
Defined.

(** The handler declaring [{"approve": [ALERT_GROUPS_READ]}]: [list] is open
    to a principal holding nothing, [approve] is decided by the evaluator. *)
Lemma has_permission_with_table_witness :
  RBACPermission.has_permission
    (MockedRequest (MockedUser user1_ref []) "GET")
    (MockedViewSet "list" (Some {[ "approve" := [Permissions.ALERT_GROUPS_READ] ]}) None)
    = Ok true
  ∧ RBACPermission.has_permission
      (MockedRequest (MockedUser user1_ref [grant Permissions.TESTING]) "APPROVE")
      (MockedAPIView (Some {[ "approve" := [Permissions.ALERT_GROUPS_READ] ]}) None)
    = Ok (has_permissions [grant Permissions.TESTING] [Permissions.ALERT_GROUPS_READ]).
Proof.
  split.
  - apply (has_permission_with_table
             (MockedRequest (MockedUser user1_ref []) "GET")
             (MockedViewSet "list"
                (Some {[ "approve" := [Permissions.ALERT_GROUPS_READ] ]}) None)
             {[ "approve" := [Permissions.ALERT_GROUPS_READ] ]});
      reflexivity.
  - apply (has_permission_with_table
             (MockedRequest (MockedUser user1_ref [grant Permissions.TESTING]) "APPROVE")
             (MockedAPIView
                (Some {[ "approve" := [Permissions.ALERT_GROUPS_READ] ]}) None)
             {[ "approve" := [Permissions.ALERT_GROUPS_READ] ]});
      reflexivity.
Defined.

Lemma has_object_permission_without_table_witness :
  RBACPermission.has_object_permission mocked_heap
    (MockedRequest (MockedUser user2_ref []) "GET") (MockedViewSet "potato" None None)
    schedule = Ok true.
Proof.
  apply (has_object_permission_without_table mocked_heap
           (MockedRequest (MockedUser user2_ref []) "GET")
           (MockedViewSet "potato" None None) schedule).
  reflexivity.
Defined.

(** The first entry naming ["destroy"] decides, here against a principal that
    the later entry would have let through; ["patch"] is named by no entry;
    and the empty table lets everything through. *)
Lemma has_object_permission_with_table_witness :
  RBACPermission.has_object_permission mocked_heap
    (MockedRequest (MockedUser user2_ref []) "DELETE")
    (MockedViewSet "destroy" None (Some mocked_object_permissions)) schedule
    = policy_has_object_permission mocked_heap
        (PIsOwner {| IsOwner.ownership_field := Some "user" |})
        (MockedRequest (MockedUser user2_ref []) "DELETE") schedule
  ∧ RBACPermission.has_object_permission mocked_heap
      (MockedRequest (MockedUser user1_ref []) "PATCH")
      (MockedAPIView None (Some mocked_object_permissions)) schedule = Ok false
  ∧ RBACPermission.has_object_permission mocked_heap
      (MockedRequest (MockedUser user1_ref []) "PATCH")
      (MockedAPIView None (Some [])) schedule = Ok true.
Proof.
  split; [| split].
  - destruct (has_object_permission_with_table mocked_heap
                (MockedRequest (MockedUser user2_ref []) "DELETE")
                (MockedViewSet "destroy" None (Some mocked_object_permissions))
                schedule mocked_object_permissions eq_refl) as [Hfull _].
    destruct (Hfull ltac:(discriminate)) as [Hfirst _].
    apply (Hfirst
             [(PHasRBACPermissions
                 {| HasRBACPermissions.required_permissions :=
                      [Permissions.SCHEDULES_READ] |},
               ["list"; "retrieve"])]
             (PIsOwner {| IsOwner.ownership_field := Some "user" |})
             ["update"; "destroy"]
             [(PHasRBACPermissions {| HasRBACPermissions.required_permissions := [] |},
               ["destroy"])]).
    + reflexivity.
    + apply Forall_forall. by apply (bool_decide_unpack _).
    + by apply (bool_decide_unpack _).
  - destruct (has_object_permission_with_table mocked_heap
                (MockedRequest (MockedUser user1_ref []) "PATCH")
                (MockedAPIView None (Some mocked_object_permissions))
                schedule mocked_object_permissions eq_refl) as [Hfull _].
    destruct (Hfull ltac:(discriminate)) as [_ Hnone].
    apply Hnone. apply Forall_forall. by apply (bool_decide_unpack _).
  - destruct (has_object_permission_with_table mocked_heap
                (MockedRequest (MockedUser user1_ref []) "PATCH")
                (MockedAPIView None (Some [])) schedule [] eq_refl) as [_ Hempty].
    by apply Hempty.
Defined.

(** The tests' nested case: the thingy's schedule belongs to the first
    user. *)
Lemma IsOwner_has_object_permission_spec_witness :
  IsOwner.has_object_permission mocked_heap
    {| IsOwner.ownership_field := Some "schedule.user" |}
    (MockedRequest (MockedUser user1_ref []) "GET") thingy = Ok true
  ∧ IsOwner.has_object_permission mocked_heap
      {| IsOwner.ownership_field := Some ("schedule" +:+ "." +:+ "user") |}
      (MockedRequest (MockedUser user2_ref []) "GET") thingy = Ok false.
Proof.
  split.
  - destruct (IsOwner_has_object_permission_spec mocked_heap
                (MockedRequest (MockedUser user1_ref []) "GET") thingy)
      as (_ & Hpath & _).
    apply (Hpath "schedule.user" (VObj user1_ref)). reflexivity.
  - destruct (IsOwner_has_object_permission_spec mocked_heap
                (MockedRequest (MockedUser user2_ref []) "GET") thingy)
      as (_ & _ & Hnested).
    apply (Hnested "schedule" "user" schedule (VObj user1_ref)); reflexivity.
Defined.

(** The thingy's schedule has no [owner]. *)
Lemma IsOwner_unresolved_path_raises_witness :
  IsOwner.has_object_permission mocked_heap
    {| IsOwner.ownership_field := Some "schedule.owner" |}
    (MockedRequest (MockedUser user1_ref []) "GET") thingy = Raise AttributeError.
Proof.
  apply (IsOwner_unresolved_path_raises mocked_heap
           (MockedRequest (MockedUser user1_ref []) "GET") thingy
           "schedule.owner" ["schedule"] [] "owner" schedule).
  - reflexivity.
  - reflexivity.
  - intros [a Ha]. discriminate Ha.
Defined.

(** Not the owner, but holding the blanket permission. *)
Lemma IsOwnerOrHasRBACPermissions_spec_witness :
  IsOwnerOrHasRBACPermissions.has_object_permission mocked_heap
    (IsOwnerOrHasRBACPermissions.init [Permissions.SCHEDULES_READ] (Some "user"))
    (MockedRequest (MockedUser user2_ref [grant Permissions.SCHEDULES_READ]) "GET")
    schedule = Ok true
  ∧ IsOwnerOrHasRBACPermissions.has_object_permission mocked_heap
      (IsOwnerOrHasRBACPermissions.init [Permissions.SCHEDULES_READ] (Some "user"))
      (MockedRequest (MockedUser user2_ref []) "GET") schedule = Ok false.
Proof.
  split.
  - destruct (IsOwnerOrHasRBACPermissions_spec mocked_heap
                (IsOwnerOrHasRBACPermissions.init
                   [Permissions.SCHEDULES_READ] (Some "user"))
                (MockedRequest
                   (MockedUser user2_ref [grant Permissions.SCHEDULES_READ]) "GET")
                schedule false eq_refl) as (_ & Htrue & _).
    apply Htrue. right. reflexivity.
  - destruct (IsOwnerOrHasRBACPermissions_spec mocked_heap
                (IsOwnerOrHasRBACPermissions.init
                   [Permissions.SCHEDULES_READ] (Some "user"))
                (MockedRequest (MockedUser user2_ref []) "GET")
                schedule false eq_refl) as (Hresult & _).
    exact Hresult.
Defined.


(** * Further properties of the module *)

(** ** The catalog *)

Lemma Permissions_members_inj (p q : Permissions.t) :
  Permissions.members p = Permissions.members q → p = q.
Proof. destruct p, q; simpl; intros H; first [discriminate H | done]. Qed.

Lemma Permissions_value_inj (p q : Permissions.t) :
  Permissions.value p = Permissions.value q → p = q.
Proof.
  unfold Permissions.value. intros H.
  apply generate_permission_string_inj in H as [H1 H2].
  apply Permissions_members_inj.
  destruct (Permissions.members p), (Permissions.members q). simpl in *. congruence.
Qed.

Lemma Permissions_iter_complete (p : Permissions.t) : p ∈ Permissions_iter.
Proof. destruct p; by apply (bool_decide_unpack _). Qed.

(** X1: no two members of the [Permissions] enumeration have the same
    value, so none is an alias of another and a value names one member. *)
Theorem Permissions_value_injective (p q : Permissions.t) :
  Permissions.value p = Permissions.value q → p = q.
Proof. apply Permissions_value_inj. Qed.

Lemma elem_of_ALL_PERMISSIONS (p : Permissions.t) :
  p ∈ ALL_PERMISSIONS ↔ p ≠ Permissions.TESTING.
Proof.
  unfold ALL_PERMISSIONS. rewrite list_elem_of_filter.
  pose proof (Permissions_iter_complete p). tauto.
Qed.

(** X2: [ALL_PERMISSIONS] lists every permission except [TESTING], each of
    them once. *)
Theorem ALL_PERMISSIONS_spec (p : Permissions.t) :
  (p ∈ ALL_PERMISSIONS ↔ p ≠ Permissions.TESTING) ∧ NoDup ALL_PERMISSIONS.
Proof.
  split; [apply elem_of_ALL_PERMISSIONS | by apply (bool_decide_unpack _)].
Qed.

(** ** The evaluator on catalog grants *)

Lemma has_permissions_grants (P R : list Permissions.t) :
  has_permissions (grant <$> P) R = true ↔ R ⊆ P.
Proof.
  rewrite has_permissions_true_iff. split.
  - intros HR r Hr. destruct (HR r Hr) as (g & Hg & Hact).
    apply list_elem_of_fmap in Hg as (p & -> & Hp).
    simpl in Hact. by apply Permissions_value_inj in Hact as <-.
  - intros Hsub r Hr. exists (grant r). split; [| done].
    by apply list_elem_of_fmap_2, Hsub.
Qed.

(** X3: for a principal whose grants are exactly the catalog permissions
    [P], the evaluator decides inclusion: it answers [True] exactly when
    every required permission is one of [P].  No permission stands in for
    another one. *)
Theorem has_permissions_of_grants (P R : list Permissions.t) :
  has_permissions (grant <$> P) R = true ↔ ∀ r, r ∈ R → r ∈ P.
Proof. apply has_permissions_grants. Qed.

(** X4: a principal granted everything in [ALL_PERMISSIONS] meets every
    requirement that does not name [TESTING], and none that does. *)
Theorem has_permissions_ALL_PERMISSIONS (R : list Permissions.t) :
  has_permissions (grant <$> ALL_PERMISSIONS) R = true ↔ Permissions.TESTING ∉ R.
Proof.
  rewrite has_permissions_grants. split.
  - intros Hsub Hin. by apply Hsub, elem_of_ALL_PERMISSIONS in Hin.
  - intros Hnot r Hr. apply elem_of_ALL_PERMISSIONS. by intros ->.
Qed.

(** X16: a principal granted everything in [ALL_PERMISSIONS] passes the
    request gate of every handler whose declared table nowhere requires
    [TESTING], for every action. *)
Theorem has_permission_ALL_PERMISSIONS
    (request : Request) (view : View) (table : RBACPermissionsAttribute) :
  rbac_permissions view = Some table →
  (∀ key required, table !! key = Some required → Permissions.TESTING ∉ required) →
  permissions (user request) = grant <$> ALL_PERMISSIONS →
  RBACPermission.has_permission request view = Ok true.
Proof.
  intros Htable Hfree Hall. unfold RBACPermission.has_permission.
  rewrite Htable, Hall. f_equal. apply has_permissions_grants.
  intros r Hr. apply elem_of_ALL_PERMISSIONS. intros ->.
  destruct (table !! _get_view_action request view) as [required|] eqn:Hlookup;
    simpl in Hr; [by apply (Hfree _ _ Hlookup) | by apply elem_of_nil in Hr].
Qed.

(** X5: a requirement list put together from two lists is met exactly when
    both are. *)
Theorem has_permissions_app
    (G : list GrafanaPermission) (R1 R2 : list Permissions.t) :
  has_permissions G (R1 ++ R2) = has_permissions G R1 && has_permissions G R2.
Proof.
  induction R1 as [|r R1 IH]; simpl; [done |].
  by destruct (granted_permission G (Permissions.value r)).
Qed.

(** X6: requiring less never denies: whoever meets [R] meets every list
    whose elements are among those of [R]. *)
Theorem has_permissions_antitone
    (G : list GrafanaPermission) (R R' : list Permissions.t) :
  (∀ r, r ∈ R' → r ∈ R) →
  has_permissions G R = true →
  has_permissions G R' = true.
Proof. apply has_permissions_anti. Qed.

Lemma unprefixed_not_a_value (r : Resources.t) (a : Actions.t) (p : Permissions.t) :
  _generate_permission_string r a true ≠ Permissions.value p.
Proof.
  unfold Permissions.value, _generate_permission_string.
  destruct r; simpl; discriminate.
Qed.

(** X7: identifiers generated without the prefix are not permission values:
    a principal all of whose grants carry such identifiers meets no
    requirement but the empty one. *)
Theorem has_permissions_unprefixed_grants
    (G : list GrafanaPermission) (R : list Permissions.t) :
  (∀ g, g ∈ G → ∃ r a, action g = _generate_permission_string r a true) →
  R ≠ [] →
  has_permissions G R = false.
Proof.
  intros HG HR. destruct R as [|p R]; [done |]. simpl.
  destruct (granted_permission G (Permissions.value p)) as [g|] eqn:Hg; [| done].
  apply granted_permission_found in Hg as [Hin Hact].
  destruct (HG g Hin) as (r & a & Hgen).
  destruct (unprefixed_not_a_value r a p). congruence.
Qed.

(** ** The gates and the principal's grants *)

(** X8: at the request gate more grants never take access away: a request
    that passes still passes when its principal holds further grants. *)
Theorem has_permission_more_grants (request request' : Request) (view : View) :
  method request' = method request →
  (∀ g, g ∈ permissions (user request) → g ∈ permissions (user request')) →
  RBACPermission.has_permission request view = Ok true →
  RBACPermission.has_permission request' view = Ok true.
Proof.
  intros Hmethod Hsub. unfold RBACPermission.has_permission, _get_view_action.
  rewrite Hmethod. destruct (rbac_permissions view) as [table|]; [| done].
  intros [= Hok]. f_equal. eapply has_permissions_mono; [exact Hsub | done].
Qed.

Lemma lower_ascii_idemp (c : ascii) : lower_ascii (lower_ascii c) = lower_ascii c.
Proof. destruct c as [[] [] [] [] [] [] [] []]; reflexivity. Qed.

Lemma lower_idemp (s : string) : lower (lower s) = lower s.
Proof.
  induction s as [|c s IH]; simpl; [done |]. by rewrite lower_ascii_idemp, IH.
Qed.

(** X9: on an [APIView] the table is looked up under the lower-cased method
    name, so an entry whose key is not in lower case is never found: when no
    key of the table is in lower case, every request passes, whatever its
    method and its principal's grants. *)
Theorem has_permission_APIView_keys_not_lower
    (request : Request) (view : View) (table : RBACPermissionsAttribute) :
  shape view = APIView →
  rbac_permissions view = Some table →
  (∀ key, is_Some (table !! key) → lower key ≠ key) →
  RBACPermission.has_permission request view = Ok true.
Proof.
  intros Hshape Htable Hkeys.
  unfold RBACPermission.has_permission, _get_view_action. rewrite Hshape, Htable.
  destruct (table !! lower (method request)) as [required|] eqn:Hlookup; [| done].
  destruct (Hkeys (lower (method request))); [by eexists | apply lower_idemp].
Qed.

Section more_grants.
Variables (h : Heap) (request request' : Request) (obj : Value).
Hypothesis Huser : user_ref (user request') = user_ref (user request).
Hypothesis Hsub : ∀ g, g ∈ permissions (user request) → g ∈ permissions (user request').

Lemma IsOwner_same_principal (self : IsOwner.t) :
  IsOwner.has_object_permission h self request' obj
    = IsOwner.has_object_permission h self request obj.
Proof. unfold IsOwner.has_object_permission, request_user. by rewrite Huser. Qed.

Lemma policy_more_grants (p : PermissionClass) :
  policy_has_object_permission h p request obj = Ok true →
  policy_has_object_permission h p request' obj = Ok true.
Proof.
  destruct p as [p|p|p]; simpl.
  - by rewrite IsOwner_same_principal.
  - unfold HasRBACPermissions.has_object_permission. intros [= Hok]. f_equal.
    eapply has_permissions_mono; [exact Hsub | done].
  - unfold IsOwnerOrHasRBACPermissions.has_object_permission.
    rewrite IsOwner_same_principal.
    destruct (IsOwner.has_object_permission h _ request obj) as [[]|e]; simpl; try done.
    unfold HasRBACPermissions.has_object_permission. intros [= Hok]. f_equal.
    eapply has_permissions_mono; [exact Hsub | done].
Qed.

Lemma scan_more_grants (items : RBACObjectPermissionsAttribute) (action : string) :
  RBACPermission.scan h items action request obj = Ok true →
  RBACPermission.scan h items action request' obj = Ok true.
Proof.
  induction items as [|[p actions] items IH]; simpl; [done |].
  case_bool_decide; [apply policy_more_grants | apply IH].
Qed.
End more_grants.

(** X10: at the object gate, too, more grants never take access away: with
    the same principal, method, handler and object, a check that answers
    [True] still does when the principal holds further grants, whichever
    policy decides. *)
Theorem has_object_permission_more_grants
    (h : Heap) (request request' : Request) (view : View) (obj : Value) :
  user_ref (user request') = user_ref (user request) →
  method request' = method request →
  (∀ g, g ∈ permissions (user request) → g ∈ permissions (user request')) →
  RBACPermission.has_object_permission h request view obj = Ok true →
  RBACPermission.has_object_permission h request' view obj = Ok true.
Proof.
  intros Huser Hmethod Hsub.
  unfold RBACPermission.has_object_permission, _get_view_action. rewrite Hmethod.
  destruct (rbac_object_permissions view) as [[|e table]|]; try done.
  by apply scan_more_grants.
Qed.

(** ** Where the object gate can raise *)

Lemma policy_without_path_returns
    (h : Heap) (p : PermissionClass) (request : Request) (obj : Value) :
  policy_ownership_field p = None →
  is_Ok (policy_has_object_permission h p request obj).
Proof.
  destruct p as [p|p|p]; simpl.
  - unfold IsOwner.has_object_permission. intros ->. by eexists.
  - intros _. by eexists.
  - unfold IsOwnerOrHasRBACPermissions.has_object_permission,
      IsOwner.has_object_permission.
    intros ->. simpl. case_bool_decide; by eexists.
Qed.

Lemma scan_returns
    (h : Heap) (items : RBACObjectPermissionsAttribute) (action : string)
    (request : Request) (obj : Value) :
  (∀ e, e ∈ items → policy_ownership_field e.1 = None) →
  is_Ok (RBACPermission.scan h items action request obj).
Proof.
  intros Hitems. induction items as [|[p actions] items IH]; simpl.
  - by eexists.
  - case_bool_decide.
    + apply policy_without_path_returns, (Hitems (p, actions)). left.
    + apply IH. intros e He. apply Hitems. by right.
Qed.

(** X11: the object gate returns an answer, and raises nothing, whenever no
    policy of the handler's table was constructed with an ownership path;
    the only source of an exception is the resolution of such a path. *)
Theorem has_object_permission_returns
    (h : Heap) (request : Request) (view : View) (obj : Value) :
  (∀ table e, rbac_object_permissions view = Some table → e ∈ table →
              policy_ownership_field e.1 = None) →
  is_Ok (RBACPermission.has_object_permission h request view obj).
Proof.
  intros Hfree. unfold RBACPermission.has_object_permission.
  destruct (rbac_object_permissions view) as [[|e0 table]|] eqn:Htable;
    try by eexists.
  apply scan_returns. intros e He. by apply (Hfree (e0 :: table)).
Qed.

(** ** The composed policy at its edges *)

(** X12: a composed policy constructed with an empty permission list lets
    every principal through on every object on which its ownership check
    returns, owner or not. *)
Theorem IsOwnerOrHasRBACPermissions_empty_list
    (h : Heap) (ownership_field : option string) (request : Request) (obj : Value) :
  is_Ok (IsOwner.has_object_permission h
           {| IsOwner.ownership_field := ownership_field |} request obj) →
  IsOwnerOrHasRBACPermissions.has_object_permission h
    (IsOwnerOrHasRBACPermissions.init [] ownership_field) request obj = Ok true.
Proof.
  intros [is_owner Howner].
  unfold IsOwnerOrHasRBACPermissions.has_object_permission. simpl.
  rewrite Howner. simpl. by destruct is_owner.
Qed.

(** X13: ownership is exclusive: when the ownership policy answers [True]
    to two requests about the same object, they come from the same
    principal. *)
Theorem IsOwner_exclusive
    (h : Heap) (self : IsOwner.t) (request request' : Request) (obj : Value) :
  IsOwner.has_object_permission h self request obj = Ok true →
  IsOwner.has_object_permission h self request' obj = Ok true →
  user_ref (user request) = user_ref (user request').
Proof.
  unfold IsOwner.has_object_permission, request_user.
  destruct (match IsOwner.ownership_field self with
            | Some field => getattrd h obj field
            | None => Ok obj
            end) as [owner|e]; simpl; [| done].
  intros [= H1] [= H2].
  apply bool_decide_eq_true in H1, H2. congruence.
Qed.

(** X14: the testing permission is out of reach of production grants: a
    principal whose grants all come from [ALL_PERMISSIONS] meets no
    requirement that names [TESTING]. *)
Theorem has_permissions_TESTING_unreachable
    (G : list GrafanaPermission) (R : list Permissions.t) :
  (∀ g, g ∈ G → ∃ p, p ∈ ALL_PERMISSIONS ∧ g = grant p) →
  Permissions.TESTING ∈ R →
  has_permissions G R = false.
Proof.
  intros HG HR. apply not_true_is_false. rewrite has_permissions_true_iff.
  intros Hall. destruct (Hall _ HR) as (g & Hg & Hact).
  destruct (HG g Hg) as (p & Hp & ->). simpl in Hact.
  apply Permissions_value_inj in Hact as ->.
  by apply elem_of_ALL_PERMISSIONS in Hp.
Qed.

(** X15: the composed policy evaluates the ownership check first and
    unguarded: whatever that check raises, the composed policy raises, and
    the principal's grants are not looked at. *)
Theorem IsOwnerOrHasRBACPermissions_raises
    (h : Heap) (self : IsOwnerOrHasRBACPermissions.t)
    (request : Request) (obj : Value) (e : Exn) :
  IsOwner.has_object_permission h
    (IsOwnerOrHasRBACPermissions.IsOwner self) request obj = Raise e →
  IsOwnerOrHasRBACPermissions.has_object_permission h self request obj = Raise e.
Proof.
  intros Hraise. unfold IsOwnerOrHasRBACPermissions.has_object_permission.
  by rewrite Hraise.
Qed.

(** * The further properties at concrete inputs *)

Lemma Permissions_value_injective_witness :
  Permissions.USER_SETTINGS_ADMIN = Permissions.USER_SETTINGS_ADMIN.
Proof.
  apply (Permissions_value_injective
           Permissions.USER_SETTINGS_ADMIN Permissions.USER_SETTINGS_ADMIN).
  reflexivity.
Defined.

Lemma has_permissions_antitone_witness :
  has_permissions
    [grant Permissions.SCHEDULES_READ; grant Permissions.SCHEDULES_WRITE]
    [Permissions.SCHEDULES_WRITE] = true.
Proof.
  apply (has_permissions_antitone
           [grant Permissions.SCHEDULES_READ; grant Permissions.SCHEDULES_WRITE]
           [Permissions.SCHEDULES_READ; Permissions.SCHEDULES_WRITE]
           [Permissions.SCHEDULES_WRITE]).
  - intros r. rewrite !elem_of_cons, !elem_of_nil. tauto.
  - reflexivity.
Defined.

Lemma has_permissions_unprefixed_grants_witness :
  has_permissions
    [ {| action := _generate_permission_string
                     Resources.ALERT_GROUPS Actions.WRITE true |} ]
    [Permissions.ALERT_GROUPS_WRITE] = false.
Proof.
  apply (has_permissions_unprefixed_grants
           [ {| action := _generate_permission_string
                            Resources.ALERT_GROUPS Actions.WRITE true |} ]
           [Permissions.ALERT_GROUPS_WRITE]).
  - intros g Hg. apply list_elem_of_singleton in Hg as ->.
    exists Resources.ALERT_GROUPS, Actions.WRITE. reflexivity.
  - discriminate.
Defined.

Lemma has_permission_more_grants_witness :
  RBACPermission.has_permission
    (MockedRequest
       (MockedUser user1_ref
          [grant Permissions.TESTING; grant Permissions.ALERT_GROUPS_READ]) "hello")
    (MockedAPIView (Some {[ "hello" := [Permissions.ALERT_GROUPS_READ] ]}) None)
  = Ok true.
Proof.
  apply (has_permission_more_grants
           (MockedRequest
              (MockedUser user1_ref [grant Permissions.ALERT_GROUPS_READ]) "hello")).
  - reflexivity.
  - intros g. simpl. rewrite !elem_of_cons, !elem_of_nil. tauto.
  - reflexivity.
Defined.

(** A table keyed by ["GET"] protects nothing on an [APIView]. *)
Lemma has_permission_APIView_keys_not_lower_witness :
  RBACPermission.has_permission
    (MockedRequest (MockedUser user1_ref []) "GET")
    (MockedAPIView (Some {[ "GET" := [Permissions.ALERT_GROUPS_WRITE] ]}) None)
  = Ok true.
Proof.
  apply (has_permission_APIView_keys_not_lower
           (MockedRequest (MockedUser user1_ref []) "GET")
           (MockedAPIView (Some {[ "GET" := [Permissions.ALERT_GROUPS_WRITE] ]}) None)
           {[ "GET" := [Permissions.ALERT_GROUPS_WRITE] ]}).
  - reflexivity.
  - reflexivity.
  - intros key [required Hkey].
    apply lookup_singleton_Some in Hkey as [<- _]. discriminate.
Defined.

Lemma has_object_permission_more_grants_witness :
  RBACPermission.has_object_permission mocked_heap
    (MockedRequest
       (MockedUser user2_ref
          [grant Permissions.TESTING; grant Permissions.SCHEDULES_READ]) "GET")
    (MockedViewSet "retrieve" None (Some mocked_object_permissions)) schedule
  = Ok true.
Proof.
  apply (has_object_permission_more_grants mocked_heap
           (MockedRequest
              (MockedUser user2_ref [grant Permissions.SCHEDULES_READ]) "GET")).
  - reflexivity.
  - reflexivity.
  - intros g. simpl. rewrite !elem_of_cons, !elem_of_nil. tauto.
  - reflexivity.
Defined.

Lemma has_object_permission_returns_witness :
  is_Ok (RBACPermission.has_object_permission mocked_heap
           (MockedRequest (MockedUser user2_ref []) "GET")
           (MockedViewSet "retrieve" None
              (Some [ (PHasRBACPermissions
                         {| HasRBACPermissions.required_permissions :=
                              [Permissions.SCHEDULES_READ] |}, ["list"]);
                      (PIsOwner {| IsOwner.ownership_field := None |},
                       ["retrieve"]) ]))
           VNone).
Proof.
  apply has_object_permission_returns.
  intros table e [= <-] He.
  rewrite !elem_of_cons, elem_of_nil in He.
  destruct He as [-> | [-> | []]]; reflexivity.
Defined.

Lemma IsOwnerOrHasRBACPermissions_empty_list_witness :
  IsOwnerOrHasRBACPermissions.has_object_permission mocked_heap
    (IsOwnerOrHasRBACPermissions.init [] (Some "user"))
    (MockedRequest (MockedUser user2_ref []) "GET") schedule = Ok true.
Proof.
  apply (IsOwnerOrHasRBACPermissions_empty_list mocked_heap (Some "user")
           (MockedRequest (MockedUser user2_ref []) "GET") schedule).
  exists false. reflexivity.
Defined.

Lemma IsOwner_exclusive_witness :
  user_ref (user (MockedRequest (MockedUser user1_ref []) "GET"))
  = user_ref (user (MockedRequest
                      (MockedUser user1_ref [grant Permissions.SCHEDULES_READ]) "PUT")).
Proof.
  apply (IsOwner_exclusive mocked_heap
           {| IsOwner.ownership_field := Some "schedule.user" |} _ _ thingy);
    reflexivity.
Defined.

Lemma has_permissions_TESTING_unreachable_witness :
  has_permissions [grant Permissions.SCHEDULES_READ]
    [Permissions.SCHEDULES_READ; Permissions.TESTING] = false.
Proof.
  apply (has_permissions_TESTING_unreachable
           [grant Permissions.SCHEDULES_READ]
           [Permissions.SCHEDULES_READ; Permissions.TESTING]).
  - intros g Hg. apply list_elem_of_singleton in Hg as ->.
    exists Permissions.SCHEDULES_READ. split; [| reflexivity].
    by apply (bool_decide_unpack _).
  - by apply (bool_decide_unpack _).
Defined.

Lemma IsOwnerOrHasRBACPermissions_raises_witness :
  IsOwnerOrHasRBACPermissions.has_object_permission mocked_heap
    (IsOwnerOrHasRBACPermissions.init [Permissions.SCHEDULES_READ] (Some "schedule.user"))
    (MockedRequest (MockedUser user2_ref [grant Permissions.SCHEDULES_READ]) "GET")
    schedule = Raise AttributeError.
Proof.
  apply (IsOwnerOrHasRBACPermissions_raises mocked_heap
           (IsOwnerOrHasRBACPermissions.init
              [Permissions.SCHEDULES_READ] (Some "schedule.user"))
           (MockedRequest
              (MockedUser user2_ref [grant Permissions.SCHEDULES_READ]) "GET")
           schedule AttributeError).
  reflexivity.
Defined.

Lemma has_permission_ALL_PERMISSIONS_witness :
  RBACPermission.has_permission
    (MockedRequest (MockedUser user1_ref (grant <$> ALL_PERMISSIONS)) "PUT")
    (MockedAPIView
       (Some {[ "put" := [Permissions.OTHER_SETTINGS_WRITE;
                          Permissions.USER_SETTINGS_ADMIN] ]}) None)
  = Ok true.
Proof.
  apply (has_permission_ALL_PERMISSIONS
           (MockedRequest (MockedUser user1_ref (grant <$> ALL_PERMISSIONS)) "PUT")
           (MockedAPIView
              (Some {[ "put" := [Permissions.OTHER_SETTINGS_WRITE;
                                 Permissions.USER_SETTINGS_ADMIN] ]}) None)
           {[ "put" := [Permissions.OTHER_SETTINGS_WRITE;
                        Permissions.USER_SETTINGS_ADMIN] ]}).
  - reflexivity.
  - intros key required Hkey.
    apply lookup_singleton_Some in Hkey as [_ <-]. by apply (bool_decide_unpack _).
  - reflexivity.
Defined.
